(** * FinalProfitableStrategy (src/atom.py): the per-bar decision logic

    A shallow embedding of [FinalProfitableStrategy.next] and
    [FinalProfitableStrategy.notify_order].  Prices, indicator values and the
    portfolio value are Python floats, i.e. IEEE-754 binary64 numbers: they
    are modelled by Rocq's primitive floats, so that comparisons with NaN,
    signed zeros and rounding behave as they do in the interpreter. *)

From Stdlib Require Import ZArith Floats List Bool Lia.
Import ListNotations.

Set Warnings "-inexact-float".

Local Open Scope float_scope.

(** ** Python values *)

Module Py.

(** The exceptions the arithmetic of [next] can raise. *)
Inductive exn : Type :=
| ZeroDivisionError
| ValueError
| OverflowError.

Inductive result (A : Type) : Type :=
| Ok (a : A)
| Raise (e : exn).
Arguments Ok {A} a.
Arguments Raise {A} e.

Definition bind {A B : Type} (r : result A) (k : A -> result B) : result B :=
  match r with
  | Ok a => k a
  | Raise e => Raise e
  end.

(** [x / y] on floats: a zero divisor (of either sign) raises. *)
Definition truediv (x y : float) : result float :=
  if y =? 0 then Raise ZeroDivisionError else Ok (x / y).

(** The integer [m * 2^e] truncated toward zero, for a positive mantissa. *)
Definition trunc_mag (m : positive) (e : Z) : Z :=
  if (0 <=? e)%Z then (Z.pos m * 2 ^ e)%Z else Z.quot (Z.pos m) (2 ^ (- e)).

(** [int(x)]: truncation toward zero; NaN and the infinities raise. *)
Definition int (x : float) : result Z :=
  match Prim2SF x with
  | S754_nan => Raise ValueError
  | S754_infinity _ => Raise OverflowError
  | S754_zero _ => Ok 0%Z
  | S754_finite s m e =>
      Ok (if s then (- trunc_mag m e)%Z else trunc_mag m e)
  end.

(** [math.floor(x)] as a partial function: the greatest integer below a
    finite float (rounding toward minus infinity). *)
Definition floor (x : float) : option Z :=
  match Prim2SF x with
  | S754_nan | S754_infinity _ => None
  | S754_zero _ => Some 0%Z
  | S754_finite s m e =>
      let sm := if s then Z.neg m else Z.pos m in
      Some (if (0 <=? e)%Z then (sm * 2 ^ e)%Z else (sm / 2 ^ (- e))%Z)
  end.

(** Truth value of an optional float: [None] and zeros are false, every
    other float (NaN included) is true. *)
Definition truthy (x : option float) : bool :=
  match x with
  | None => false
  | Some v => negb (v =? 0)
  end.

End Py.

Import Py.

Notation "x <- c ;; k" := (bind c (fun x => k))
  (at level 61, c at next level, right associativity).

(** ** The strategy object *)

(** [params] of the class, with the defaults of the source. *)
Record Params : Type := mkParams {
  fast_ema : nat;
  slow_ema : nat;
  position_pct : float;
  atr_period : nat;
  stop_atr_multiplier : float
}.

Definition default_params : Params :=
  {| fast_ema := 50;
     slow_ema := 200;
     position_pct := 0.95;
     atr_period := 14;
     stop_atr_multiplier := 8.0 |}.

(** The mutable attributes of the strategy, together with the size of the
    position the broker holds for it ([self.position.size]). *)
Record Strategy : Type := mkStrategy {
  position : Z;
  entry_price : option float;
  stop_price : option float;
  trade_count : Z
}.

(** State after [__init__], before any order was sent. *)
Definition init : Strategy :=
  {| position := 0; entry_price := None; stop_price := None; trade_count := 0 |}.

(** [bool(self.position)]: a position is open when its size is not zero. *)
Definition position_open (s : Strategy) : bool := negb (position s =? 0)%Z.

Definition set_stop_price (v : option float) (s : Strategy) : Strategy :=
  {| position := position s; entry_price := entry_price s;
     stop_price := v; trade_count := trade_count s |}.

Definition set_entry_price (v : option float) (s : Strategy) : Strategy :=
  {| position := position s; entry_price := v;
     stop_price := stop_price s; trade_count := trade_count s |}.

Definition set_trade_count (n : Z) (s : Strategy) : Strategy :=
  {| position := position s; entry_price := entry_price s;
     stop_price := stop_price s; trade_count := n |}.

Definition set_position (n : Z) (s : Strategy) : Strategy :=
  {| position := n; entry_price := entry_price s;
     stop_price := stop_price s; trade_count := trade_count s |}.

(** What [next] reads on one bar: the number of bars delivered so far
    ([len(self)]), the close, the two averages on this bar ([[0]]) and on the
    previous one ([[-1]]), the ATR and [self.broker.getvalue()]. *)
Record Bar : Type := mkBar {
  len : nat;
  close : float;
  fast0 : float;
  slow0 : float;
  fast1 : float;
  slow1 : float;
  atr0 : float;
  portfolio_value : float
}.

(** ** Effects of one call of [next] *)

Inductive reason : Type :=
| TrendReversal
| StopLoss.

(** The calls [next] makes, in program order: [self.buy(size=n)],
    [self.close()], and the two kinds of [print]. *)
Inductive effect : Type :=
| CallBuy (size : Z)
| CallClose
| PrintExit (r : reason) (at_close : float)
| PrintEntry (at_close : float) (size : Z) (stop : float).

(** The per-bar decision of the specification, read off the calls. *)
Inductive Decision : Type :=
| NoAction
| EnterLong (size : Z)
| ExitPosition (r : reason).

Definition exit_reason (out : list effect) : reason :=
  match out with
  | _ :: PrintExit r _ :: _ => r
  | _ => StopLoss
  end.

Definition decision (out : list effect) : Decision :=
  match out with
  | CallBuy n :: _ => EnterLong n
  | CallClose :: _ => ExitPosition (exit_reason out)
  | _ => NoAction
  end.

Definition is_order (e : effect) : bool :=
  match e with
  | CallBuy _ | CallClose => true
  | _ => false
  end.

(** Orders sent during one call. *)
Definition orders (out : list effect) : list effect := filter is_order out.

(** ** [next] *)

Section WithParams.

Variable p : Params.

(** [(portfolio_value * self.p.position_pct) / self.data.close[0]] *)
Definition size_quotient (b : Bar) : result float :=
  truediv (portfolio_value b * position_pct p) (close b).

(** [int((portfolio_value * self.p.position_pct) / self.data.close[0])] *)
Definition position_size (b : Bar) : result Z :=
  q <- size_quotient b ;; int q.

(** [self.data.close[0] - (self.atr[0] * self.p.stop_atr_multiplier)] *)
Definition entry_stop (b : Bar) : float :=
  close b - atr0 b * stop_atr_multiplier p.

(** The golden cross test of the [else] branch. *)
Definition golden_cross (b : Bar) : bool :=
  (slow0 b <? fast0 b) && (fast1 b <=? slow1 b).

Definition next (s : Strategy) (b : Bar) : result (list effect * Strategy) :=
  if position_open s then
    if fast0 b <? slow0 b then
      Ok ([CallClose; PrintExit TrendReversal (close b)], s)
    else if truthy (stop_price s) &&
            match stop_price s with
            | Some sp => close b <? sp
            | None => false
            end then
      Ok ([CallClose; PrintExit StopLoss (close b)], s)
    else
      Ok ([], s)
  else
    if golden_cross b then
      size <- position_size b ;;
      if (1 <=? size)%Z then
        let sp := entry_stop b in
        Ok ([CallBuy size; PrintEntry (close b) size sp],
            set_stop_price (Some sp) s)
      else
        Ok ([], s)
    else
      Ok ([], s).

End WithParams.

(** ** [notify_order] *)

Inductive OrderStatus : Type :=
| Created | Submitted | Accepted | Partial | Completed
| Canceled | Expired | Margin | Rejected.

Inductive OrdType : Type :=
| Buy
| Sell.

(** The part of a backtrader order [notify_order] and the broker look at. *)
Record Order : Type := mkOrder {
  status : OrderStatus;
  ordtype : OrdType;
  executed_size : Z;
  executed_price : float
}.

Definition isbuy (o : Order) : bool :=
  match ordtype o with Buy => true | Sell => false end.

Definition issell (o : Order) : bool :=
  match ordtype o with Sell => true | Buy => false end.

Definition notify_order (o : Order) (s : Strategy) : Strategy :=
  match status o with
  | Completed =>
      if isbuy o then
        set_trade_count (trade_count s + 1)
          (set_entry_price (Some (executed_price o)) s)
      else if issell o then
        set_entry_price None s
      else s
  | _ => s
  end.

(** ** The harness around the strategy

    The class is a [bt.Strategy]: the position belongs to the broker, and
    [next] is reached through the bar dispatch it inherits.  The two pieces
    of backtrader the statements on fills and on warm-up depend on are
    written out here. *)

(** An order that did not execute: the statuses with which the broker gives
    an order back without a fill. *)
Definition fill_failure (st : OrderStatus) : bool :=
  match st with
  | Canceled | Expired | Margin | Rejected => true
  | _ => false
  end.

(** The broker moves the position by the executed size, up for a buy and
    down for a sell, when an order executes. *)
Definition broker_fill (o : Order) (s : Strategy) : Strategy :=
  match status o with
  | Partial | Completed =>
      set_position
        (position s + (if isbuy o then executed_size o else - executed_size o))
        s
  | _ => s
  end.

(** One order notification: the broker's bookkeeping, then [notify_order]. *)
Definition deliver (o : Order) (s : Strategy) : Strategy :=
  notify_order o (broker_fill o s).

(** The order [self.close()] sends for a long position, once it is filled. *)
Definition exit_fill (s : Strategy) (price : float) : Order :=
  {| status := Completed; ordtype := Sell;
     executed_size := position s; executed_price := price |}.

(** The order [self.buy(size=n)] sends, once it is filled. *)
Definition entry_fill (n : Z) (price : float) : Order :=
  {| status := Completed; ordtype := Buy;
     executed_size := n; executed_price := price |}.

(** Minimum periods of the indicators built in [__init__]: an EMA over
    [period] bars has its first value on bar [period]; the ATR smooths the
    true range, which needs the previous close, so it needs one bar more. *)
Definition ema_minperiod (period : nat) : nat := period.
Definition atr_minperiod (period : nat) : nat := S period.

(** The minimum period of the strategy is the largest one of its
    indicators. *)
Definition minperiod (p : Params) : nat :=
  Nat.max (Nat.max (ema_minperiod (fast_ema p)) (ema_minperiod (slow_ema p)))
          (atr_minperiod (atr_period p)).

(** [prenext] is not overridden by the class: the inherited method does
    nothing. *)
Definition prenext (s : Strategy) : result (list effect * Strategy) :=
  Ok ([], s).

(** Per-bar entry point ([Strategy._next]): [prenext] while the number of
    bars is below the minimum period, [next] from then on. *)
Definition on_bar (p : Params) (s : Strategy) (b : Bar)
  : result (list effect * Strategy) :=
  if (minperiod p <=? len b)%nat then next p s b else prenext s.

(** ** Sample bars and orders

    All of them lie after the warm-up of the default parameters. *)

(** A golden cross at a close of 100 with an ATR of 2. *)
Definition cross_bar : Bar :=
  {| len := 250; close := 100; fast0 := 101; slow0 := 100;
     fast1 := 99; slow1 := 100; atr0 := 2.0; portfolio_value := 100000 |}.

(** The same cross at a close of 123.45. *)
Definition cross_bar_123 : Bar :=
  {| len := 250; close := 123.45; fast0 := 101; slow0 := 100;
     fast1 := 99; slow1 := 100; atr0 := 2.0; portfolio_value := 100000 |}.

(** The same cross at a close above the whole portfolio value. *)
Definition cross_bar_dear : Bar :=
  {| len := 250; close := 1000000; fast0 := 101; slow0 := 100;
     fast1 := 99; slow1 := 100; atr0 := 2.0; portfolio_value := 100000 |}.

(** The same cross at a close of zero. *)
Definition cross_bar_zero : Bar :=
  {| len := 250; close := 0; fast0 := 101; slow0 := 100;
     fast1 := 99; slow1 := 100; atr0 := 2.0; portfolio_value := 100000 |}.

(** Fast already above slow on the previous bar. *)
Definition uptrend_bar : Bar :=
  {| len := 251; close := 101; fast0 := 102; slow0 := 100;
     fast1 := 101; slow1 := 100; atr0 := 2.0; portfolio_value := 100000 |}.

(** Fast above slow, close just under 84. *)
Definition dip_bar : Bar :=
  {| len := 260; close := 83.99; fast0 := 101; slow0 := 100;
     fast1 := 101; slow1 := 100; atr0 := 2.0; portfolio_value := 95000 |}.

(** Fast below slow, close just under 84. *)
Definition reversal_dip_bar : Bar :=
  {| len := 260; close := 83.99; fast0 := 99; slow0 := 100;
     fast1 := 101; slow1 := 100; atr0 := 2.0; portfolio_value := 95000 |}.

(** Fast level with slow, negative close. *)
Definition negative_bar : Bar :=
  {| len := 260; close := -1; fast0 := 100; slow0 := 100;
     fast1 := 101; slow1 := 100; atr0 := 2.0; portfolio_value := 95000 |}.

(** Fast below slow, close not a number. *)
Definition nan_close_reversal_bar : Bar :=
  {| len := 260; close := nan; fast0 := 99; slow0 := 100;
     fast1 := 101; slow1 := 100; atr0 := 2.0; portfolio_value := 95000 |}.

(** Fast average not a number, close just under 84. *)
Definition nan_fast_bar : Bar :=
  {| len := 260; close := 83.99; fast0 := nan; slow0 := 100;
     fast1 := 99; slow1 := 100; atr0 := 2.0; portfolio_value := 95000 |}.



(** The state after the entry on [cross_bar] was filled at 100. *)
Definition long_950 : Strategy :=
  {| position := 950; entry_price := Some 100; stop_price := Some 84;
     trade_count := 1 |}.

(** An open position whose stop was never set. *)
Definition long_no_stop : Strategy :=
  {| position := 950; entry_price := Some 100; stop_price := None;
     trade_count := 1 |}.

(** A buy order the broker turned down. *)
Definition rejected_buy : Order :=
  {| status := Rejected; ordtype := Buy;
     executed_size := 0; executed_price := 0 |}.

(** ** [notify_trade] *)

(** The fields of a backtrader trade that [notify_trade] reads.  [size] is
    a Python integer. *)
Module Trade.

Record t : Type := mk {
  isclosed : bool;
  pnl : float;
  pnlcomm : float;
  price : float;
  size : Z
}.

End Trade.

(** Conversion of an integer operand in mixed arithmetic: the nearest
    binary64 number, ties to even; an integer beyond the range of the floats
    raises. *)
Definition float_of_int (n : Z) : result float :=
  let f := SF2Prim (binary_normalize prec emax n 0 false) in
  if is_infinity f then Raise OverflowError else Ok f.

(** The label bound to [result]. *)
Inductive outcome : Type :=
| WIN
| LOSS.

(** What the [print] of [notify_trade] shows: the trade count, the label,
    [trade.pnlcomm] and [pnl_pct]. *)
Record TradeLine : Type := mkTradeLine {
  line_count : Z;
  line_result : outcome;
  line_pnl : float;
  line_pct : float
}.

(** [(trade.pnlcomm / abs(trade.price * trade.size)) * 100
     if trade.size != 0 else 0] *)
Definition pnl_pct (t : Trade.t) : result float :=
  if negb (Trade.size t =? 0)%Z then
    sz <- float_of_int (Trade.size t) ;;
    q <- truediv (Trade.pnlcomm t) (abs (Trade.price t * sz)) ;;
    Ok (q * 100)
  else Ok 0.

Definition notify_trade (s : Strategy) (t : Trade.t)
  : result (option TradeLine) :=
  if Trade.isclosed t then
    let result := if 0 <? Trade.pnl t then WIN else LOSS in
    pct <- pnl_pct t ;;
    Ok (Some {| line_count := trade_count s; line_result := result;
                line_pnl := Trade.pnlcomm t; line_pct := pct |})
  else Ok None.

(** ** The profit factor of [run_backtest] *)

(** The part of the trade analysis [run_backtest] reads for the profit
    factor: [trades[side]['pnl']['total']], where every level may be
    missing. *)
Record PnlStats : Type := mkPnlStats {
  total : option float
}.

Record SideStats : Type := mkSideStats {
  side_pnl : option PnlStats
}.

Record TradeAnalysis : Type := mkTradeAnalysis {
  won : option SideStats;
  lost : option SideStats
}.

(** [side.get('pnl', {}).get('total', 0)] on [trades.get(side, {})] *)
Definition pnl_total (side : option SideStats) : float :=
  match side with
  | Some st =>
      match side_pnl st with
      | Some ps =>
          match total ps with
          | Some x => x
          | None => 0
          end
      | None => 0
      end
  | None => 0
  end.

(** [total_won / total_lost if total_lost > 0 else float('inf')] *)
Definition profit_factor (trades : TradeAnalysis) : result float :=
  let total_won := pnl_total (won trades) in
  let total_lost := abs (pnl_total (lost trades)) in
  if 0 <? total_lost then truediv total_won total_lost else Ok infinity.

(** ** Sequences of callbacks

    Over a run the framework calls the strategy once per bar and once per
    order notification, in some interleaving; an exception ends the run. *)

Inductive event : Type :=
| OnBar (b : Bar)
| OnOrder (o : Order).

Fixpoint run (p : Params) (s : Strategy) (evs : list event)
  : result (list effect * Strategy) :=
  match evs with
  | [] => Ok ([], s)
  | OnBar b :: rest =>
      r <- on_bar p s b ;;
      r' <- run p (snd r) rest ;;
      Ok (fst r ++ fst r', snd r')
  | OnOrder o :: rest => run p (deliver o s) rest
  end.

(** Notifications of completed buy orders. *)
Definition completed_buy (e : event) : bool :=
  match e with
  | OnOrder o =>
      match status o with
      | Completed => isbuy o
      | _ => false
      end
  | OnBar _ => false
  end.

Definition is_bar (e : event) : bool :=
  match e with
  | OnBar _ => true
  | OnOrder _ => false
  end.

(** The last completed order of a list of notifications, if any. *)
Fixpoint last_completed (os : list Order) : option Order :=
  match os with
  | [] => None
  | o :: rest =>
      match last_completed rest with
      | Some o' => Some o'
      | None =>
          match status o with
          | Completed => Some o
          | _ => None
          end
      end
  end.

(** The order notifications of a run, in the order they arrive. *)
Fixpoint notified (evs : list event) : list Order :=
  match evs with
  | [] => []
  | OnOrder o :: rest => o :: notified rest
  | OnBar _ :: rest => notified rest
  end.

(** An entry that fills, a dip under the stop, and the exit that fills. *)
Definition round_trip : list event :=
  [OnBar cross_bar; OnOrder (entry_fill 950 100);
   OnBar dip_bar; OnOrder (exit_fill long_950 83)].

(** More sample inputs. *)

(** A closed trade with a gross profit that the commission turns into a
    net loss. *)
Definition thin_trade : Trade.t :=
  {| Trade.isclosed := true; Trade.pnl := 10; Trade.pnlcomm := -5;
     Trade.price := 100; Trade.size := 0 |}.

(** A trade analysis without any losing trade. *)
Definition no_loss_analysis : TradeAnalysis :=
  {| won := Some {| side_pnl := Some {| total := Some 1200 |} |};
     lost := None |}.

(** A completed sell order. *)
Definition completed_sell : Order :=
  {| status := Completed; ordtype := Sell;
     executed_size := 950; executed_price := 90 |}.

(** * Properties *)

(** ** Facts on binary64 comparisons *)

Lemma SFcompare_Lt_swap (x y : spec_float) :
  SFcompare y x = Some Lt -> SFcompare x y = Some Gt.
Proof.
  destruct x as [[|]|[|]| |[|] m e], y as [[|]|[|]| |[|] m' e'];
    simpl; try congruence;
    change (PosDef.Pos.compare_cont Eq) with Pos.compare;
    rewrite (Z.compare_antisym e' e), (Pos.compare_antisym m' m);
    destruct (e' ?= e)%Z; simpl; try congruence;
    destruct (m' ?= m)%positive; simpl; congruence.
Qed.

(** [y < x] excludes [x <= y]. *)
Lemma ltb_leb_false (x y : float) : (y <? x) = true -> (x <=? y) = false.
Proof.
  rewrite FloatAxioms.ltb_spec, FloatAxioms.leb_spec. unfold SFltb, SFleb.
  destruct (SFcompare (Prim2SF y) (Prim2SF x)) as [[| |]|] eqn:E;
    try discriminate.
  intros _. now rewrite (SFcompare_Lt_swap _ _ E).
Qed.

Lemma SFcompare_refl_nan (x : spec_float) :
  SFcompare x x <> Some Eq -> x = S754_nan.
Proof.
  destruct x as [[|]|[|]| |[|] m e]; simpl; try congruence;
    change (PosDef.Pos.compare_cont Eq) with Pos.compare;
    rewrite Z.compare_refl, Pos.compare_refl; simpl; congruence.
Qed.

Lemma is_nan_spec (x : float) : is_nan x = true -> Prim2SF x = S754_nan.
Proof.
  unfold is_nan. rewrite FloatAxioms.eqb_spec. unfold SFeqb. intros H.
  apply SFcompare_refl_nan.
  destruct (SFcompare (Prim2SF x) (Prim2SF x)) as [[| |]|];
    simpl in H; congruence.
Qed.

(** Every ordered comparison with a NaN operand is false. *)
Lemma nan_ltb_l (x y : float) : is_nan x = true -> (x <? y) = false.
Proof.
  intros H. rewrite FloatAxioms.ltb_spec, (is_nan_spec x H). reflexivity.
Qed.

Lemma nan_ltb_r (x y : float) : is_nan y = true -> (x <? y) = false.
Proof.
  intros H. rewrite FloatAxioms.ltb_spec, (is_nan_spec y H).
  unfold SFltb. now destruct (Prim2SF x).
Qed.



(** ** Truncation and floor *)

Lemma trunc_mag_nonneg (m : positive) (e : Z) : (0 <= trunc_mag m e)%Z.
Proof.
  unfold trunc_mag. destruct (0 <=? e)%Z eqn:E.
  - apply Z.leb_le in E. apply Z.mul_nonneg_nonneg; [lia|].
    apply Z.pow_nonneg; lia.
  - apply Z.leb_gt in E. apply Z.quot_pos; [lia|].
    apply Z.pow_pos_nonneg; lia.
Qed.

(** On a positive mantissa truncation and floor are the same integer. *)
Lemma trunc_mag_floor (m : positive) (e : Z) :
  trunc_mag m e
  = if (0 <=? e)%Z then (Z.pos m * 2 ^ e)%Z else (Z.pos m / 2 ^ (- e))%Z.
Proof.
  unfold trunc_mag. destruct (0 <=? e)%Z eqn:E; [reflexivity|].
  apply Z.leb_gt in E. apply Z.quot_div_nonneg; [lia|].
  apply Z.pow_pos_nonneg; lia.
Qed.

(** [int] agrees with [floor] on every float that is not negative. *)
Lemma int_floor_nonneg (q : float) (n : Z) :
  int q = Ok n -> (q <? 0) = false -> floor q = Some n.
Proof.
  unfold int, floor. rewrite FloatAxioms.ltb_spec.
  change (Prim2SF 0) with (S754_zero false).
  destruct (Prim2SF q) as [[|]|[|]| |[|] m e]; simpl;
    try discriminate; try (intros [= <-] _; reflexivity).
  intros [= <-] _. now rewrite trunc_mag_floor.
Qed.

(** A truncation that is at least one comes from a positive float, where it
    is the floor. *)
Lemma int_floor_pos (q : float) (n : Z) :
  int q = Ok n -> (1 <= n)%Z -> floor q = Some n.
Proof.
  unfold int, floor.
  destruct (Prim2SF q) as [[|]|[|]| |[|] m e]; simpl;
    try discriminate; intros [= <-] Hn; try lia.
  - pose proof (trunc_mag_nonneg m e). lia.
  - now rewrite trunc_mag_floor.
Qed.

(** A float whose floor is zero truncates to zero. *)
Lemma floor_zero_int (q : float) : floor q = Some 0%Z -> int q = Ok 0%Z.
Proof.
  unfold int, floor.
  destruct (Prim2SF q) as [[|]|[|]| |[|] m e]; cbv beta iota zeta;
    try discriminate; try reflexivity.
  - intros [= H]. exfalso. destruct (0 <=? e)%Z eqn:E.
    + apply Z.leb_le in E.
      assert (0 < 2 ^ e)%Z by (apply Z.pow_pos_nonneg; lia).
      change (Z.neg m * 2 ^ e = 0)%Z in H. apply Z.mul_eq_0 in H. lia.
    + apply Z.leb_gt in E.
      assert (0 < 2 ^ (- e))%Z as Hp by (apply Z.pow_pos_nonneg; lia).
      assert (Z.neg m / 2 ^ (- e) < 0)%Z; [|lia].
      apply Z.div_lt_upper_bound; [exact Hp|]. rewrite Z.mul_0_r. lia.
  - intros H. rewrite trunc_mag_floor. congruence.
Qed.

(** ** Shape of the result of [next] *)

Lemma next_open (p : Params) (s : Strategy) (b : Bar) :
  position_open s = true ->
  next p s b =
    Ok (if fast0 b <? slow0 b then
          [CallClose; PrintExit TrendReversal (close b)]
        else if truthy (stop_price s) &&
                match stop_price s with
                | Some sp => close b <? sp
                | None => false
                end then
          [CallClose; PrintExit StopLoss (close b)]
        else [], s).
Proof.
  intros Ho. unfold next. rewrite Ho.
  destruct (fast0 b <? slow0 b); [reflexivity|].
  now destruct (truthy (stop_price s) && _).
Qed.

Lemma next_flat_entry (p : Params) (s : Strategy) (b : Bar) (n : Z) :
  position_open s = false ->
  golden_cross b = true ->
  position_size p b = Ok n ->
  (1 <= n)%Z ->
  next p s b =
    Ok ([CallBuy n; PrintEntry (close b) n (entry_stop p b)],
        set_stop_price (Some (entry_stop p b)) s).
Proof.
  intros Hf Hg Hs Hn. unfold next. rewrite Hf, Hg, Hs. simpl.
  apply Z.leb_le in Hn. now rewrite Hn.
Qed.

Lemma next_flat_small (p : Params) (s : Strategy) (b : Bar) (n : Z) :
  position_open s = false ->
  position_size p b = Ok n ->
  (n < 1)%Z ->
  next p s b = Ok ([], s).
Proof.
  intros Hf Hs Hn. unfold next. rewrite Hf, Hs. simpl.
  apply Z.leb_gt in Hn. rewrite Hn. now destruct (golden_cross b).
Qed.

Lemma next_flat_no_cross (p : Params) (s : Strategy) (b : Bar) :
  position_open s = false ->
  golden_cross b = false ->
  next p s b = Ok ([], s).
Proof.
  intros Hf Hg. unfold next. now rewrite Hf, Hg.
Qed.

(** Without an open position, an entry is the only thing [next] can decide,
    and it pins down the cross and the size. *)
Lemma next_flat_enter_inv (p : Params) (s s' : Strategy) (b : Bar)
      (out : list effect) (n : Z) :
  position_open s = false ->
  next p s b = Ok (out, s') ->
  decision out = EnterLong n ->
  golden_cross b = true /\ position_size p b = Ok n /\ (1 <= n)%Z.
Proof.
  intros Hf Hn Hd. unfold next in Hn. rewrite Hf in Hn.
  destruct (golden_cross b); [|injection Hn as <- <-; discriminate].
  destruct (position_size p b) as [k|e]; simpl in Hn; [|discriminate].
  destruct (1 <=? k)%Z eqn:Hk; injection Hn as <- <-; [|discriminate].
  injection Hd as <-. apply Z.leb_le in Hk. auto.
Qed.

(** ** Entry *)

(** C1. With no position open, [next] decides [EnterLong n] exactly when the
    fast average is above the slow one on this bar, was at or below it on the
    previous bar, and the computed size is [n >= 1]; and when the fast
    average was already strictly above the slow one on the previous bar, no
    entry is decided. *)
Theorem golden_cross_entry_iff (p : Params) (s : Strategy) (b : Bar) :
  position_open s = false ->
  (forall n,
      (exists out s', next p s b = Ok (out, s') /\ decision out = EnterLong n)
      <-> ((slow0 b <? fast0 b) = true /\ (fast1 b <=? slow1 b) = true /\
           position_size p b = Ok n /\ (1 <= n)%Z))
  /\ ((slow1 b <? fast1 b) = true ->
      forall out s' n, next p s b = Ok (out, s') -> decision out <> EnterLong n).
Proof.
  intros Hf. split.
  - intros n. split.
    + intros (out & s' & Hn & Hd).
      destruct (next_flat_enter_inv p s s' b out n Hf Hn Hd) as (Hg & Hs & Hle).
      unfold golden_cross in Hg. apply andb_true_iff in Hg. tauto.
    + intros (H1 & H2 & Hs & Hle).
      assert (golden_cross b = true) as Hg
          by (unfold golden_cross; now rewrite H1, H2).
      rewrite (next_flat_entry p s b n Hf Hg Hs Hle).
      eexists _, _. split; reflexivity.
  - intros Hup out s' n Hn Hd.
    destruct (next_flat_enter_inv p s s' b out n Hf Hn Hd) as (Hg & _).
    unfold golden_cross in Hg. apply andb_true_iff in Hg.
    rewrite (ltb_leb_false _ _ Hup) in Hg. destruct Hg; discriminate.
Qed.

Lemma golden_cross_entry_iff_witness :
  (exists out s',
      next default_params init cross_bar = Ok (out, s') /\
      decision out = EnterLong 950)
  /\ (forall out s' n,
         next default_params init uptrend_bar = Ok (out, s') ->
         decision out <> EnterLong n).
Proof.
  split.
  - apply (proj1 (golden_cross_entry_iff default_params init cross_bar
                                         eq_refl) 950%Z).
    repeat split; try reflexivity. discriminate.
  - apply (proj2 (golden_cross_entry_iff default_params init uptrend_bar
                                         eq_refl)).
    reflexivity.
Defined.

(** C6. The size of an entry is the float quotient
    [portfolio_value * position_pct / close] cut to an integer: whenever the
    size computation returns [n], the close is not zero, [n] is the
    truncation of that very quotient, and it is its floor whenever the
    quotient is not negative, and so whenever an entry is decided, which
    happens with size [n] as soon as [n >= 1]. *)
Theorem position_size_is_floor (p : Params) (s : Strategy) (b : Bar) (n : Z) :
  position_open s = false ->
  golden_cross b = true ->
  position_size p b = Ok n ->
  (close b =? 0) = false /\
  size_quotient p b = Ok (portfolio_value b * position_pct p / close b) /\
  int (portfolio_value b * position_pct p / close b) = Ok n /\
  ((portfolio_value b * position_pct p / close b <? 0) = false ->
   floor (portfolio_value b * position_pct p / close b) = Some n) /\
  ((1 <= n)%Z ->
   floor (portfolio_value b * position_pct p / close b) = Some n /\
   exists out s', next p s b = Ok (out, s') /\ decision out = EnterLong n).
Proof.
  intros Hf Hg Hs.
  assert (position_size p b = Ok n) as Hs' by exact Hs.
  unfold position_size, size_quotient, truediv in Hs |- *.
  destruct (close b =? 0); simpl in Hs; [discriminate|].
  split; [reflexivity|]. split; [reflexivity|]. split; [exact Hs|].
  split; [now apply int_floor_nonneg|].
  intros Hn. split; [now apply int_floor_pos|].
  rewrite (next_flat_entry p s b n Hf Hg Hs' Hn).
  eexists _, _. split; reflexivity.
Qed.

Lemma position_size_is_floor_witness :
  int (100000 * 0.95 / 123.45) = Ok 769%Z /\
  floor (100000 * 0.95 / 123.45) = Some 769%Z /\
  exists out s',
    next default_params init cross_bar_123 = Ok (out, s') /\
    decision out = EnterLong 769.
Proof.
  destruct (position_size_is_floor default_params init cross_bar_123 769
                                   eq_refl eq_refl eq_refl)
    as (_ & _ & Hi & _ & Hpos).
  split; [exact Hi|]. destruct Hpos as (Hfl & Hex); [discriminate|]. auto.
Defined.

(** C7. When the golden cross holds and the floor of the size quotient is
    zero, [next] makes no call and returns the state as it was: no order, no
    print, no exception, [stop_price] not written. *)
Theorem zero_size_suppresses_entry (p : Params) (s : Strategy) (b : Bar)
        (q : float) :
  position_open s = false ->
  golden_cross b = true ->
  size_quotient p b = Ok q ->
  floor q = Some 0%Z ->
  next p s b = Ok ([], s) /\ decision [] = NoAction.
Proof.
  intros Hf Hg Hq Hfl. split; [|reflexivity].
  apply (next_flat_small p s b 0); [exact Hf| |lia].
  unfold position_size. rewrite Hq. simpl. now apply floor_zero_int.
Qed.

Lemma zero_size_suppresses_entry_witness :
  next default_params init cross_bar_dear = Ok ([], init) /\
  decision [] = NoAction.
Proof.
  apply (zero_size_suppresses_entry default_params init cross_bar_dear
           (100000 * 0.95 / 1000000)); reflexivity.
Defined.

(** ** Exits *)

(** C2. With a position open, when the fast average is below the slow one
    and the close is below the stored stop on the same bar, [next] sends
    exactly one order, the close of the position, and reports it as a trend
    reversal. *)
Theorem trend_reversal_before_stop (p : Params) (s : Strategy) (b : Bar)
        (sp : float) :
  position_open s = true ->
  (fast0 b <? slow0 b) = true ->
  stop_price s = Some sp ->
  (close b <? sp) = true ->
  exists out,
    next p s b = Ok (out, s) /\
    orders out = [CallClose] /\
    decision out = ExitPosition TrendReversal.
Proof.
  intros Ho Ht _ _. rewrite (next_open p s b Ho), Ht.
  eexists. repeat split.
Qed.

Lemma trend_reversal_before_stop_witness :
  exists out,
    next default_params long_950 reversal_dip_bar = Ok (out, long_950) /\
    orders out = [CallClose] /\
    decision out = ExitPosition TrendReversal.
Proof.
  apply (trend_reversal_before_stop default_params long_950 reversal_dip_bar
           84); reflexivity.
Defined.

(** C10. With a position open and a stored stop that is unset or equal to
    zero, the stop test is skipped whatever the close is: [next] leaves the
    state as it was and decides a trend-reversal exit when the fast average
    is below the slow one, and nothing otherwise. *)
Theorem falsy_stop_never_stops_out (p : Params) (s : Strategy) (b : Bar) :
  position_open s = true ->
  (stop_price s = None \/
   exists sp, stop_price s = Some sp /\ (sp =? 0) = true) ->
  exists out,
    next p s b = Ok (out, s) /\
    decision out <> ExitPosition StopLoss /\
    (decision out = ExitPosition TrendReversal <-> (fast0 b <? slow0 b) = true) /\
    (decision out = NoAction <-> (fast0 b <? slow0 b) = false).
Proof.
  intros Ho Hs. rewrite (next_open p s b Ho).
  assert (truthy (stop_price s) = false) as ->.
  { destruct Hs as [-> | (sp & -> & Hz)]; simpl; [reflexivity|].
    now rewrite Hz. }
  simpl. eexists. split; [reflexivity|].
  destruct (fast0 b <? slow0 b); simpl;
    repeat split; intros; congruence.
Qed.

Lemma falsy_stop_never_stops_out_witness :
  exists out,
    next default_params long_no_stop negative_bar = Ok (out, long_no_stop) /\
    decision out <> ExitPosition StopLoss /\
    (decision out = ExitPosition TrendReversal <->
     (fast0 negative_bar <? slow0 negative_bar) = true) /\
    (decision out = NoAction <->
     (fast0 negative_bar <? slow0 negative_bar) = false).
Proof.
  apply (falsy_stop_never_stops_out default_params long_no_stop negative_bar).
  - reflexivity.
  - left. reflexivity.
Defined.

(** ** Stop price *)

(** A close that is not negative and lies below the stop leaves no room
    for a stop of zero. *)
Lemma below_stop_nonneg_close (c sp : float) :
  (c <? 0) = false -> (c <? sp) = true -> (sp =? 0) = false.
Proof.
  rewrite !FloatAxioms.ltb_spec, FloatAxioms.eqb_spec.
  change (Prim2SF 0) with (S754_zero false). unfold SFltb, SFeqb.
  destruct (Prim2SF sp) as [[|]|[|]| |[|] m e];
    try reflexivity;
    destruct (Prim2SF c) as [[|]|[|]| |[|] m' e']; simpl; congruence.
Qed.

(** C5. An entry of size [n >= 1] stores the stop
    [close - atr * stop_atr_multiplier]; after the fill of that entry the
    position is open with that stop, and on any later bar without trend
    reversal whose close, a price and so not negative, is below the stop,
    [next] decides a stop-loss exit. *)
Theorem entry_stop_then_stop_loss (p : Params) (s : Strategy) (b b2 : Bar)
        (n : Z) (price : float) :
  position_open s = false ->
  golden_cross b = true ->
  position_size p b = Ok n ->
  (1 <= n)%Z ->
  exists out s1,
    next p s b = Ok (out, s1) /\
    decision out = EnterLong n /\
    stop_price s1 = Some (close b - atr0 b * stop_atr_multiplier p) /\
    let s2 := deliver (entry_fill n price) s1 in
    position_open s2 = true /\
    stop_price s2 = Some (close b - atr0 b * stop_atr_multiplier p) /\
    ((fast0 b2 <? slow0 b2) = false ->
     (close b2 <? 0) = false ->
     (close b2 <? close b - atr0 b * stop_atr_multiplier p) = true ->
     exists out2,
       next p s2 b2 = Ok (out2, s2) /\
       orders out2 = [CallClose] /\
       decision out2 = ExitPosition StopLoss).
Proof.
  intros Hf Hg Hs Hn.
  rewrite (next_flat_entry p s b n Hf Hg Hs Hn).
  eexists _, _. split; [reflexivity|]. split; [reflexivity|].
  split; [reflexivity|]. cbv zeta.
  assert (position_open
            (deliver (entry_fill n price)
                     (set_stop_price (Some (entry_stop p b)) s)) = true) as Ho.
  { unfold position_open in *. simpl.
    apply negb_false_iff, Z.eqb_eq in Hf. rewrite Hf.
    apply negb_true_iff, Z.eqb_neq. lia. }
  split; [exact Ho|]. split; [reflexivity|].
  intros Ht Hpos Hc.
  pose proof (below_stop_nonneg_close _ _ Hpos Hc) as Hz.
  rewrite (next_open p _ b2 Ho), Ht.
  simpl. fold (entry_stop p b). unfold entry_stop at 1 2.
  rewrite Hz, Hc. simpl. eexists. repeat split.
Qed.

Lemma entry_stop_then_stop_loss_witness :
  exists out s1,
    next default_params init cross_bar = Ok (out, s1) /\
    decision out = EnterLong 950 /\
    stop_price s1 = Some 84 /\
    exists out2,
      next default_params long_950 dip_bar = Ok (out2, long_950) /\
      orders out2 = [CallClose] /\
      decision out2 = ExitPosition StopLoss.
Proof.
  destruct (entry_stop_then_stop_loss default_params init cross_bar dip_bar
              950 100 eq_refl eq_refl eq_refl)
    as (out & s1 & Hn & Hd & Hsp & Hlater); [discriminate|].
  exists out, s1. repeat split; try assumption.
  injection Hn as <- <-.
  destruct Hlater as (_ & _ & Hexit).
  apply Hexit; reflexivity.
Defined.

(** ** Warm-up *)





(** ** Order notifications *)

Lemma deliver_failure (o : Order) (s : Strategy) :
  fill_failure (status o) = true -> deliver o s = s.
Proof.
  unfold deliver, broker_fill, notify_order.
  destruct (status o); simpl; intros H; try discriminate; reflexivity.
Qed.

(** [next] either leaves the state alone or, on an entry, stores the stop. *)
Lemma next_state (p : Params) (s s' : Strategy) (b : Bar) (out : list effect) :
  next p s b = Ok (out, s') ->
  (s' = s /\ forall n, decision out <> EnterLong n) \/
  (position_open s = false /\
   s' = set_stop_price (Some (entry_stop p b)) s /\
   exists n, decision out = EnterLong n).
Proof.
  intros Hn. destruct (position_open s) eqn:Ho.
  - rewrite (next_open p s b Ho) in Hn. injection Hn as <- <-. left.
    split; [reflexivity|]. intros n.
    destruct (fast0 b <? slow0 b); [discriminate|].
    destruct (truthy (stop_price s) && _); discriminate.
  - unfold next in Hn. rewrite Ho in Hn.
    destruct (golden_cross b);
      [|injection Hn as <- <-; left; split; [reflexivity|discriminate]].
    destruct (position_size p b) as [k|e]; simpl in Hn; [|discriminate].
    destruct (1 <=? k)%Z; injection Hn as <- <-.
    + right. split; [reflexivity|]. split; [reflexivity|]. now exists k.
    + left. split; [reflexivity|discriminate].
Qed.

(** C3, as stated, fails for an entry: [next] stores the stop price when it
    sends the buy order, so after the broker rejects that order the state
    differs from the one before the bar. *)
Lemma rejected_entry_keeps_new_stop :
  next default_params init cross_bar
  = Ok ([CallBuy 950; PrintEntry 100 950 84], set_stop_price (Some 84) init)
  /\ fill_failure (status rejected_buy) = true
  /\ stop_price init = None
  /\ stop_price (deliver rejected_buy (set_stop_price (Some 84) init))
     = Some 84
  /\ deliver rejected_buy (set_stop_price (Some 84) init) <> init.
Proof.
  repeat split. discriminate.
Qed.

(** C3, amended. When the order sent on a bar is given back without a fill,
    the position, the entry price and the trade count are the ones from
    before the bar, and the same bar presented again leads to the same calls
    and to the same state; the stop price is the one from before the bar
    after a failed exit, and the stop stored with the buy order after a
    failed entry. *)
Theorem failed_fill_state (p : Params) (s s' : Strategy) (b : Bar)
        (out : list effect) (o : Order) :
  next p s b = Ok (out, s') ->
  fill_failure (status o) = true ->
  position (deliver o s') = position s /\
  entry_price (deliver o s') = entry_price s /\
  trade_count (deliver o s') = trade_count s /\
  stop_price (deliver o s')
  = match decision out with
    | EnterLong _ => Some (close b - atr0 b * stop_atr_multiplier p)
    | _ => stop_price s
    end /\
  next p (deliver o s') b = Ok (out, deliver o s').
Proof.
  intros Hn Hfail. rewrite (deliver_failure o s' Hfail).
  destruct (next_state p s s' b out Hn) as [(-> & Hd) | (Hf & -> & n & Hd)].
  - repeat split; try assumption.
    destruct (decision out) as [|n|r]; try reflexivity.
    now destruct (Hd n).
  - rewrite Hd. repeat split.
    destruct (next_flat_enter_inv p s _ b out n Hf Hn Hd) as (Hg & Hs & Hle).
    rewrite (next_flat_entry p s b n Hf Hg Hs Hle) in Hn.
    injection Hn as <-.
    exact (next_flat_entry p (set_stop_price (Some (entry_stop p b)) s) b n
             Hf Hg Hs Hle).
Qed.

Lemma failed_fill_state_witness :
  let s' := set_stop_price (Some 84) init in
  position (deliver rejected_buy s') = position init /\
  entry_price (deliver rejected_buy s') = entry_price init /\
  trade_count (deliver rejected_buy s') = trade_count init /\
  stop_price (deliver rejected_buy s') = Some 84 /\
  next default_params (deliver rejected_buy s') cross_bar
  = Ok ([CallBuy 950; PrintEntry 100 950 84], deliver rejected_buy s').
Proof.
  apply (failed_fill_state default_params init (set_stop_price (Some 84) init)
           cross_bar [CallBuy 950; PrintEntry 100 950 84] rejected_buy);
    reflexivity.
Defined.

(** C4, as stated, fails on the stop price: the completed sell order that
    closes [long_950] clears the entry price and leaves the stop at 84. *)
Lemma exit_fill_keeps_stop :
  position_open (deliver (exit_fill long_950 90) long_950) = false
  /\ entry_price (deliver (exit_fill long_950 90) long_950) = None
  /\ stop_price (deliver (exit_fill long_950 90) long_950) = Some 84
  /\ stop_price (deliver (exit_fill long_950 90) long_950) <> None.
Proof.
  repeat split. discriminate.
Qed.

(** C4, amended. After a completed sell order for the whole position, no
    position is open and the entry price is unset; the stop price and the
    trade count are the ones from before the fill. *)
Theorem confirmed_exit_state (s : Strategy) (o : Order) :
  status o = Completed ->
  ordtype o = Sell ->
  executed_size o = position s ->
  position_open (deliver o s) = false /\
  entry_price (deliver o s) = None /\
  stop_price (deliver o s) = stop_price s /\
  trade_count (deliver o s) = trade_count s.
Proof.
  intros Hst Hty Hsz.
  unfold deliver, broker_fill, notify_order, isbuy, issell, position_open.
  rewrite Hst, Hty, Hsz. simpl. repeat split.
  rewrite Z.add_opp_diag_r. reflexivity.
Qed.

Lemma confirmed_exit_state_witness :
  position_open (deliver (exit_fill long_950 90) long_950) = false /\
  entry_price (deliver (exit_fill long_950 90) long_950) = None /\
  stop_price (deliver (exit_fill long_950 90) long_950) = Some 84 /\
  trade_count (deliver (exit_fill long_950 90) long_950) = 1%Z.
Proof.
  apply (confirmed_exit_state long_950 (exit_fill long_950 90)); reflexivity.
Defined.

(** ** Malformed input *)

(** C8, as stated, fails: nothing in [next] screens its input.  A golden
    cross on a bar with a close of zero raises [ZeroDivisionError], and with
    a position open a bar whose close is not a number still leads to an exit
    when the fast average is below the slow one. *)
Lemma malformed_input_not_screened :
  next default_params init cross_bar_zero = Raise ZeroDivisionError
  /\ is_nan (close nan_close_reversal_bar) = true
  /\ next default_params long_950 nan_close_reversal_bar
     = Ok ([CallClose; PrintExit TrendReversal nan], long_950).
Proof.
  repeat split.
Qed.

(** C8, amended. When the fast or the slow average of the bar is not a
    number, [next] raises nothing and returns the state as it was; it
    decides neither an entry nor a trend-reversal exit, and makes no call at
    all when no position is open or when the close is not a number
    either. *)
Theorem nan_average_guard (p : Params) (s : Strategy) (b : Bar) :
  (is_nan (fast0 b) || is_nan (slow0 b)) = true ->
  exists out,
    next p s b = Ok (out, s) /\
    (position_open s = false -> out = []) /\
    (is_nan (close b) = true -> out = []) /\
    decision out <> ExitPosition TrendReversal /\
    (forall n, decision out <> EnterLong n).
Proof.
  intros Hnan.
  assert ((fast0 b <? slow0 b) = false /\ (slow0 b <? fast0 b) = false)
    as (H1 & H2).
  { apply orb_true_iff in Hnan. destruct Hnan as [H | H].
    - split; [now apply nan_ltb_l | now apply nan_ltb_r].
    - split; [now apply nan_ltb_r | now apply nan_ltb_l]. }
  destruct (position_open s) eqn:Ho.
  - rewrite (next_open p s b Ho), H1.
    eexists. split; [reflexivity|].
    split; [discriminate|]. split.
    + intros Hc. destruct (stop_price s) as [sp|]; simpl.
      * rewrite (nan_ltb_l _ sp Hc), andb_false_r. reflexivity.
      * reflexivity.
    + destruct (truthy (stop_price s) && _); simpl;
        split; intros; discriminate.
  - assert (golden_cross b = false) as Hg
        by (unfold golden_cross; now rewrite H2).
    rewrite (next_flat_no_cross p s b Ho Hg).
    eexists. split; [reflexivity|]. simpl.
    repeat split; intros; discriminate.
Qed.

Lemma nan_average_guard_witness :
  exists out,
    next default_params init nan_fast_bar = Ok (out, init) /\
    (position_open init = false -> out = []) /\
    (is_nan (close nan_fast_bar) = true -> out = []) /\
    decision out <> ExitPosition TrendReversal /\
    (forall n, decision out <> EnterLong n).
Proof.
  apply (nan_average_guard default_params init nan_fast_bar). reflexivity.
Defined.

(** * Further properties of the callbacks *)

(** ** More facts on binary64 numbers *)

Lemma ltb_asym (x y : float) : (x <? y) = true -> (y <? x) = false.
Proof.
  rewrite !FloatAxioms.ltb_spec. unfold SFltb.
  destruct (SFcompare (Prim2SF x) (Prim2SF y)) as [[| |]|] eqn:E;
    try discriminate.
  intros _. now rewrite (SFcompare_Lt_swap _ _ E).
Qed.

(** A float above zero is not a zero. *)
Lemma ltb_zero_eqb (x : float) : (0 <? x) = true -> (x =? 0) = false.
Proof.
  rewrite FloatAxioms.ltb_spec, FloatAxioms.eqb_spec. unfold SFltb, SFeqb.
  destruct (SFcompare (Prim2SF 0) (Prim2SF x)) as [[| |]|] eqn:E;
    try discriminate.
  intros _. now rewrite (SFcompare_Lt_swap _ _ E).
Qed.

Lemma is_nan_iff (x : float) : is_nan x = true <-> Prim2SF x = S754_nan.
Proof.
  split; [apply is_nan_spec|].
  intros H. unfold is_nan. rewrite FloatAxioms.eqb_spec, H. reflexivity.
Qed.

Lemma is_infinity_iff (x : float) :
  is_infinity x = true <-> exists sg, Prim2SF x = S754_infinity sg.
Proof.
  unfold is_infinity.
  rewrite FloatAxioms.eqb_spec, FloatAxioms.abs_spec.
  change (Prim2SF infinity) with (S754_infinity false).
  destruct (Prim2SF x) as [[|]|[|]| |[|] m e]; simpl; split;
    try discriminate; try reflexivity;
    try (intros [sg H]; discriminate); intros _; eexists; reflexivity.
Qed.

(** When [int] raises, and what. *)
Lemma int_raise_iff (q : float) (e : exn) :
  int q = Raise e <->
  (e = ValueError /\ is_nan q = true) \/
  (e = OverflowError /\ is_infinity q = true).
Proof.
  rewrite is_nan_iff, is_infinity_iff. unfold int.
  destruct (Prim2SF q) as [sg|sg| |sg m ex]; split;
    try (intros [= <-]); try discriminate;
    try (intros [[_ H] | [_ [sg' H]]]; discriminate).
  - right. split; [reflexivity|]. now exists sg.
  - intros [[_ H] | [-> _]]; [discriminate|reflexivity].
  - left. split; reflexivity.
  - intros [[-> _] | [_ [sg' H]]]; [reflexivity|discriminate].
Qed.

(** ** One call of [next] *)

(** X1. A call of [next] that returns sends at most one order: nothing at
    all with the state untouched, or a buy of size at least one when no
    position is open, or the close of the position when one is open.  It
    never buys into an open position and never closes without one. *)
Theorem next_sends_at_most_one_order (p : Params) (s s' : Strategy) (b : Bar)
        (out : list effect) :
  next p s b = Ok (out, s') ->
  (out = [] /\ s' = s) \/
  (position_open s = false /\
   exists n, (1 <= n)%Z /\ orders out = [CallBuy n]) \/
  (position_open s = true /\ orders out = [CallClose] /\ s' = s).
Proof.
  intros Hn. destruct (position_open s) eqn:Ho.
  - rewrite (next_open p s b Ho) in Hn. injection Hn as <- <-.
    destruct (fast0 b <? slow0 b); [right; right; auto|].
    destruct (truthy (stop_price s) && _); [right; right; auto|left; auto].
  - unfold next in Hn. rewrite Ho in Hn.
    destruct (golden_cross b); [|injection Hn as <- <-; left; auto].
    destruct (position_size p b) as [k|e]; simpl in Hn; [|discriminate].
    destruct (1 <=? k)%Z eqn:Hk; injection Hn as <- <-; [|left; auto].
    right. left. split; [reflexivity|]. exists k.
    apply Z.leb_le in Hk. auto.
Qed.

Lemma next_sends_at_most_one_order_witness :
  ([CallBuy 950; PrintEntry 100 950 84] = [] /\
   set_stop_price (Some 84) init = init) \/
  (position_open init = false /\
   exists n, (1 <= n)%Z /\
             orders [CallBuy 950; PrintEntry 100 950 84] = [CallBuy n]) \/
  (position_open init = true /\
   orders [CallBuy 950; PrintEntry 100 950 84] = [CallClose] /\
   set_stop_price (Some 84) init = init).
Proof.
  apply (next_sends_at_most_one_order default_params init
           (set_stop_price (Some 84) init) cross_bar
           [CallBuy 950; PrintEntry 100 950 84]).
  reflexivity.
Defined.

(** X2. [next] raises exactly when no position is open, the golden cross
    holds and the size computation fails: [ZeroDivisionError] for a close
    equal to zero, and otherwise [ValueError] for a quotient that is not a
    number and [OverflowError] for an infinite one.  With a position open it
    never raises. *)
Theorem next_raise_iff (p : Params) (s : Strategy) (b : Bar) (e : exn) :
  next p s b = Raise e <->
  position_open s = false /\ golden_cross b = true /\
  ((e = ZeroDivisionError /\ (close b =? 0) = true) \/
   ((close b =? 0) = false /\
    ((e = ValueError /\
      is_nan (portfolio_value b * position_pct p / close b) = true) \/
     (e = OverflowError /\
      is_infinity (portfolio_value b * position_pct p / close b) = true)))).
Proof.
  assert (position_size p b = Raise e <->
          (e = ZeroDivisionError /\ (close b =? 0) = true) \/
          ((close b =? 0) = false /\
           ((e = ValueError /\
             is_nan (portfolio_value b * position_pct p / close b) = true) \/
            (e = OverflowError /\
             is_infinity (portfolio_value b * position_pct p / close b)
             = true)))) as Hsize.
  { unfold position_size, size_quotient, truediv.
    destruct (close b =? 0); simpl.
    - split.
      + intros [= <-]. left. auto.
      + intros [[-> _] | [H _]]; [reflexivity|discriminate].
    - rewrite int_raise_iff. split.
      + intros H. right. auto.
      + intros [[_ H] | [_ H]]; [discriminate|exact H]. }
  rewrite <- Hsize. clear Hsize. split.
  - intros Hn. destruct (position_open s) eqn:Ho.
    + rewrite (next_open p s b Ho) in Hn. discriminate.
    + unfold next in Hn. rewrite Ho in Hn.
      destruct (golden_cross b); [|discriminate].
      destruct (position_size p b) as [k|e']; simpl in Hn.
      * destruct (1 <=? k)%Z; discriminate.
      * injection Hn as ->. auto.
  - intros (Ho & Hg & Hs). unfold next. rewrite Ho, Hg, Hs. reflexivity.
Qed.

Lemma next_raise_iff_witness :
  next default_params init cross_bar_zero = Raise ZeroDivisionError.
Proof.
  apply (proj2 (next_raise_iff default_params init cross_bar_zero
                               ZeroDivisionError)).
  split; [reflexivity|]. split; [reflexivity|]. left. split; reflexivity.
Defined.

(** X3. With a position open, [next] returns the state as it was and its
    decision is settled by two tests in order: a trend-reversal exit exactly
    when the fast average is below the slow one; failing that, a stop-loss
    exit exactly when the stored stop is set, is not zero and is above the
    close; it never decides an entry. *)
Theorem open_position_decision (p : Params) (s : Strategy) (b : Bar) :
  position_open s = true ->
  exists out,
    next p s b = Ok (out, s) /\
    (decision out = ExitPosition TrendReversal <->
     (fast0 b <? slow0 b) = true) /\
    (decision out = ExitPosition StopLoss <->
     (fast0 b <? slow0 b) = false /\
     exists sp, stop_price s = Some sp /\ (sp =? 0) = false /\
                (close b <? sp) = true) /\
    (forall n, decision out <> EnterLong n).
Proof.
  intros Ho. rewrite (next_open p s b Ho). eexists. split; [reflexivity|].
  destruct (fast0 b <? slow0 b).
  - simpl. repeat split; try discriminate.
    intros (H & _). discriminate.
  - destruct (stop_price s) as [sp|]; simpl.
    + destruct (sp =? 0) eqn:Hz; simpl.
      * repeat split; try discriminate.
        intros (_ & sp' & [= <-] & Hz' & _). congruence.
      * destruct (close b <? sp) eqn:Hc; simpl.
        -- repeat split; try discriminate.
           exists sp. auto.
        -- repeat split; try discriminate.
           intros (_ & sp' & [= <-] & _ & Hc'). congruence.
    + repeat split; try discriminate.
      intros (_ & sp' & H & _). discriminate.
Qed.

Lemma open_position_decision_witness :
  exists out,
    next default_params long_950 dip_bar = Ok (out, long_950) /\
    (decision out = ExitPosition TrendReversal <->
     (fast0 dip_bar <? slow0 dip_bar) = true) /\
    (decision out = ExitPosition StopLoss <->
     (fast0 dip_bar <? slow0 dip_bar) = false /\
     exists sp, stop_price long_950 = Some sp /\ (sp =? 0) = false /\
                (close dip_bar <? sp) = true) /\
    (forall n, decision out <> EnterLong n).
Proof.
  apply (open_position_decision default_params long_950 dip_bar).
  reflexivity.
Defined.

(** X4. [next] reads nothing of the state but whether a position is open
    and the stored stop: two states that agree on these lead to the same
    exception, or to the same calls and to states that again agree on them.
    The entry price and the trade count never influence a decision. *)
Theorem next_reads_position_and_stop (p : Params) (s1 s2 : Strategy)
        (b : Bar) :
  position_open s1 = position_open s2 ->
  stop_price s1 = stop_price s2 ->
  match next p s1 b, next p s2 b with
  | Ok (out1, t1), Ok (out2, t2) =>
      out1 = out2 /\ position_open t1 = position_open t2 /\
      stop_price t1 = stop_price t2 /\
      entry_price t1 = entry_price s1 /\ trade_count t1 = trade_count s1 /\
      entry_price t2 = entry_price s2 /\ trade_count t2 = trade_count s2
  | Raise e1, Raise e2 => e1 = e2
  | _, _ => False
  end.
Proof.
  intros Hp Hs. unfold next. rewrite <- Hp, <- Hs.
  destruct (position_open s1) eqn:Ho.
  - destruct (fast0 b <? slow0 b); [repeat split; congruence|].
    destruct (truthy (stop_price s1) && _); repeat split; congruence.
  - destruct (golden_cross b); [|repeat split; congruence].
    destruct (position_size p b) as [k|e]; simpl; [|reflexivity].
    destruct (1 <=? k)%Z; simpl; repeat split; try congruence.
    unfold position_open in *. simpl. congruence.
Qed.

Lemma next_reads_position_and_stop_witness :
  match next default_params long_950 dip_bar,
        next default_params
             (set_trade_count 7 (set_entry_price None long_950)) dip_bar with
  | Ok (out1, t1), Ok (out2, t2) =>
      out1 = out2 /\ position_open t1 = position_open t2 /\
      stop_price t1 = stop_price t2 /\
      entry_price t1 = entry_price long_950 /\
      trade_count t1 = trade_count long_950 /\
      entry_price t2 = None /\ trade_count t2 = 7%Z
  | Raise e1, Raise e2 => e1 = e2
  | _, _ => False
  end.
Proof.
  apply (next_reads_position_and_stop default_params long_950
           (set_trade_count 7 (set_entry_price None long_950)) dip_bar);
    reflexivity.
Defined.

(** X5. The entry test and the trend-reversal test exclude each other on a
    bar: a bar on which [next] decides an entry without a position never
    leads to a trend-reversal exit when it is handled with a position open,
    for instance after an immediate fill. *)
Theorem entry_bar_is_no_reversal (p : Params) (s s' s2 s2' : Strategy)
        (b : Bar) (out out2 : list effect) (n : Z) :
  position_open s = false ->
  next p s b = Ok (out, s') ->
  decision out = EnterLong n ->
  next p s2 b = Ok (out2, s2') ->
  decision out2 <> ExitPosition TrendReversal.
Proof.
  intros Hf Hn Hd Hn2.
  destruct (next_flat_enter_inv p s s' b out n Hf Hn Hd) as (Hg & _).
  unfold golden_cross in Hg. apply andb_true_iff in Hg.
  destruct Hg as (Hup & _). apply ltb_asym in Hup.
  destruct (position_open s2) eqn:Ho.
  - rewrite (next_open p s2 b Ho), Hup in Hn2. injection Hn2 as <- <-.
    destruct (truthy (stop_price s2) && _); discriminate.
  - unfold next in Hn2. rewrite Ho in Hn2.
    destruct (golden_cross b);
      [|injection Hn2 as <- <-; discriminate].
    destruct (position_size p b) as [k|e]; simpl in Hn2; [|discriminate].
    destruct (1 <=? k)%Z; injection Hn2 as <- <-; discriminate.
Qed.

Lemma entry_bar_is_no_reversal_witness :
  decision (@nil effect) <> ExitPosition TrendReversal.
Proof.
  apply (entry_bar_is_no_reversal default_params init
           (set_stop_price (Some 84) init) long_950 long_950 cross_bar
           [CallBuy 950; PrintEntry 100 950 84] [] 950);
    reflexivity.
Defined.

(** ** Runs of bars and order notifications *)

(** The three ways a bar can end when no exception is raised. *)
Lemma on_bar_ok_cases (p : Params) (s s' : Strategy) (b : Bar)
      (out : list effect) :
  on_bar p s b = Ok (out, s') ->
  (out = [] /\ s' = s) \/
  (position_open s = true /\ s' = s /\
   exists r, out = [CallClose; PrintExit r (close b)]) \/
  (position_open s = false /\
   exists n, (1 <= n)%Z /\
             out = [CallBuy n; PrintEntry (close b) n (entry_stop p b)] /\
             s' = set_stop_price (Some (entry_stop p b)) s).
Proof.
  unfold on_bar, prenext.
  destruct (minperiod p <=? len b)%nat;
    [|intros [= <- <-]; left; auto].
  intros Hn. destruct (position_open s) eqn:Ho.
  - rewrite (next_open p s b Ho) in Hn. injection Hn as <- <-.
    destruct (fast0 b <? slow0 b); [right; left; eauto|].
    destruct (truthy (stop_price s) && _); [right; left; eauto|left; auto].
  - unfold next in Hn. rewrite Ho in Hn.
    destruct (golden_cross b); [|injection Hn as <- <-; left; auto].
    destruct (position_size p b) as [k|e]; simpl in Hn; [|discriminate].
    destruct (1 <=? k)%Z eqn:Hk; injection Hn as <- <-; [|left; auto].
    right. right. split; [reflexivity|]. exists k.
    apply Z.leb_le in Hk. auto.
Qed.

(** A bar never touches the position, the entry price or the count. *)
Lemma on_bar_frame (p : Params) (s s' : Strategy) (b : Bar)
      (out : list effect) :
  on_bar p s b = Ok (out, s') ->
  position s' = position s /\ entry_price s' = entry_price s /\
  trade_count s' = trade_count s.
Proof.
  intros H.
  destruct (on_bar_ok_cases p s s' b out H)
    as [(_ & ->) | [(_ & -> & _) | (_ & n & _ & _ & ->)]]; auto.
Qed.

(** One step of [run] on a bar, taken apart. *)
Lemma run_bar_inv (p : Params) (s s' : Strategy) (b : Bar)
      (rest : list event) (out : list effect) :
  run p s (OnBar b :: rest) = Ok (out, s') ->
  exists out1 s1 out2,
    on_bar p s b = Ok (out1, s1) /\ run p s1 rest = Ok (out2, s') /\
    out = out1 ++ out2.
Proof.
  simpl. destruct (on_bar p s b) as [[out1 s1]|e]; simpl; [|discriminate].
  destruct (run p s1 rest) as [[out2 s2]|e] eqn:Hr; simpl; [|discriminate].
  intros [= <- <-]. exists out1, s1, out2. auto.
Qed.

(** X6. Over any run that ends without exception, the trade count grows by
    exactly the number of completed buy orders notified: bars, sells and
    orders in any other status, a partial fill included, leave it alone. *)
Theorem run_trade_count (p : Params) (evs : list event) (s s' : Strategy)
        (out : list effect) :
  run p s evs = Ok (out, s') ->
  trade_count s'
  = (trade_count s + Z.of_nat (length (filter completed_buy evs)))%Z.
Proof.
  revert s out. induction evs as [|[b|o] rest IH]; intros s out H.
  - injection H as _ <-. simpl. lia.
  - destruct (run_bar_inv p s s' b rest out H)
      as (out1 & s1 & out2 & Hb & Hr & _).
    rewrite (IH s1 out2 Hr).
    destruct (on_bar_frame p s s1 b out1 Hb) as (_ & _ & ->).
    reflexivity.
  - simpl in H. rewrite (IH _ _ H).
    unfold deliver, broker_fill, notify_order, isbuy, issell.
    cbn [filter completed_buy]. unfold isbuy.
    destruct (status o), (ordtype o); cbn -[Z.of_nat Z.add]; lia.
Qed.

Lemma run_trade_count_witness :
  trade_count long_950 = (trade_count init + 1)%Z.
Proof.
  apply (run_trade_count default_params
           [OnBar cross_bar; OnOrder rejected_buy; OnBar cross_bar;
            OnOrder (entry_fill 950 100)]
           init long_950
           [CallBuy 950; PrintEntry 100 950 84;
            CallBuy 950; PrintEntry 100 950 84]).
  reflexivity.
Defined.

(** X7. Over any run that ends without exception, the entry price is fixed
    by the last completed order notified: the executed price of a buy,
    unset after a sell, and the value from before the run when no order
    completed.  Bars never write it. *)
Theorem run_entry_price (p : Params) (evs : list event) (s s' : Strategy)
        (out : list effect) :
  run p s evs = Ok (out, s') ->
  entry_price s'
  = match last_completed (notified evs) with
    | Some o => if isbuy o then Some (executed_price o) else None
    | None => entry_price s
    end.
Proof.
  revert s out. induction evs as [|[b|o] rest IH]; intros s out H.
  - injection H as _ <-. reflexivity.
  - destruct (run_bar_inv p s s' b rest out H)
      as (out1 & s1 & out2 & Hb & Hr & _).
    simpl notified. rewrite (IH s1 out2 Hr).
    destruct (on_bar_frame p s s1 b out1 Hb) as (_ & -> & _).
    reflexivity.
  - simpl in H. rewrite (IH _ _ H). simpl.
    destruct (last_completed (notified rest)); [reflexivity|].
    unfold deliver, broker_fill, notify_order, isbuy, issell.
    destruct (status o), (ordtype o); reflexivity.
Qed.

Lemma run_entry_price_witness :
  entry_price (set_position 0 (set_entry_price None long_950)) = None.
Proof.
  apply (run_entry_price default_params round_trip init
           (set_position 0 (set_entry_price None long_950))
           [CallBuy 950; PrintEntry 100 950 84;
            CallClose; PrintExit StopLoss 83.99]).
  reflexivity.
Defined.

(** X8. Over any run that ends without exception, every buy sent has a
    size of at least one, at most one order is sent per bar, and the stop
    price is the one from before the run unless a buy was sent: order
    notifications and exits never write it. *)
Theorem run_orders_and_stop (p : Params) (evs : list event) (s s' : Strategy)
        (out : list effect) :
  run p s evs = Ok (out, s') ->
  (forall n, In (CallBuy n) out -> (1 <= n)%Z) /\
  (length (orders out) <= length (filter is_bar evs))%nat /\
  ((forall n, ~ In (CallBuy n) out) -> stop_price s' = stop_price s).
Proof.
  revert s out. induction evs as [|[b|o] rest IH]; intros s out H.
  - injection H as <- <-. simpl. repeat split; auto. intros n [].
  - destruct (run_bar_inv p s s' b rest out H)
      as (out1 & s1 & out2 & Hb & Hr & ->).
    destruct (IH s1 out2 Hr) as (Hsz & Hlen & Hstop).
    unfold orders in *. rewrite filter_app, length_app. simpl filter.
    simpl length.
    destruct (on_bar_ok_cases p s s1 b out1 Hb)
      as [(-> & ->) | [(_ & -> & r & ->) | (_ & n & Hn & -> & ->)]].
    + simpl. split; [exact Hsz|]. split; [lia|exact Hstop].
    + simpl. split; [|split].
      * intros k [Hk | [Hk | Hk]]; try discriminate. auto.
      * lia.
      * intros Hno. apply Hstop. intros k Hk. apply (Hno k).
        right. right. exact Hk.
    + simpl. split; [|split].
      * intros k [Hk | [Hk | Hk]]; try discriminate; [|auto].
        injection Hk as <-. exact Hn.
      * lia.
      * intros Hno. exfalso. apply (Hno n). left. reflexivity.
  - simpl in H. destruct (IH _ _ H) as (Hsz & Hlen & Hstop).
    split; [exact Hsz|]. split.
    + simpl. exact Hlen.
    + intros Hno. rewrite (Hstop Hno).
      unfold deliver, broker_fill, notify_order, isbuy, issell.
      destruct (status o), (ordtype o); reflexivity.
Qed.

Lemma run_orders_and_stop_witness :
  (forall n,
      In (CallBuy n)
         [CallBuy 950; PrintEntry 100 950 84;
          CallClose; PrintExit StopLoss 83.99] -> (1 <= n)%Z) /\
  (length (orders [CallBuy 950; PrintEntry 100 950 84;
                   CallClose; PrintExit StopLoss 83.99])
   <= length (filter is_bar round_trip))%nat /\
  ((forall n,
       ~ In (CallBuy n)
         [CallBuy 950; PrintEntry 100 950 84;
          CallClose; PrintExit StopLoss 83.99]) ->
   stop_price (set_position 0 (set_entry_price None long_950))
   = stop_price init).
Proof.
  apply (run_orders_and_stop default_params round_trip init
           (set_position 0 (set_entry_price None long_950))
           [CallBuy 950; PrintEntry 100 950 84;
            CallClose; PrintExit StopLoss 83.99]).
  reflexivity.
Defined.

(** X9. While a position is open and no order notification arrives, no
    sequence of bars raises an exception or changes the state: the stop set
    at entry is never moved, however the prices and the ATR develop. *)
Theorem open_position_bars_keep_state (p : Params) (evs : list event)
        (s : Strategy) :
  position_open s = true ->
  forallb is_bar evs = true ->
  exists out, run p s evs = Ok (out, s).
Proof.
  intros Ho. induction evs as [|[b|o] rest IH]; intros Hb.
  - eexists. reflexivity.
  - destruct (IH Hb) as (out2 & Hr). simpl.
    assert (exists out1, on_bar p s b = Ok (out1, s)) as (out1 & ->).
    { unfold on_bar, prenext.
      destruct (minperiod p <=? len b)%nat; [|eauto].
      rewrite (next_open p s b Ho). eauto. }
    simpl. rewrite Hr. simpl. eauto.
  - discriminate.
Qed.

Lemma open_position_bars_keep_state_witness :
  exists out,
    run default_params long_950 [OnBar uptrend_bar; OnBar dip_bar;
                                 OnBar reversal_dip_bar]
    = Ok (out, long_950).
Proof.
  apply (open_position_bars_keep_state default_params
           [OnBar uptrend_bar; OnBar dip_bar; OnBar reversal_dip_bar]
           long_950); reflexivity.
Defined.

(** ** [notify_trade] *)

Lemma float_of_int_raise (n : Z) (e : exn) :
  float_of_int n = Raise e -> e = OverflowError.
Proof.
  unfold float_of_int.
  destruct (is_infinity _); [intros [= <-]; reflexivity|discriminate].
Qed.

Lemma pnl_pct_raise (t : Trade.t) (e : exn) :
  pnl_pct t = Raise e ->
  Trade.size t <> 0%Z /\ (e = OverflowError \/ e = ZeroDivisionError).
Proof.
  unfold pnl_pct. destruct (Trade.size t =? 0)%Z eqn:Hz; simpl;
    [discriminate|].
  apply Z.eqb_neq in Hz. intros H. split; [exact Hz|].
  destruct (float_of_int (Trade.size t)) as [sz|e'] eqn:Hc; simpl in H.
  - unfold truediv in H.
    destruct (abs (Trade.price t * sz) =? 0); simpl in H;
      [injection H as <-; auto|discriminate].
  - injection H as <-. left. exact (float_of_int_raise _ _ Hc).
Qed.

(** X10. [notify_trade] prints nothing for a trade that is not closed, and
    it can only fail on a closed trade whose size is not zero, with
    [OverflowError] or [ZeroDivisionError]: the test on the size does not
    cover a zero price.  For a closed trade of size zero the percentage
    shown is 0, whatever the price and the P&L are. *)
Theorem notify_trade_edges (s : Strategy) (t : Trade.t) :
  (Trade.isclosed t = false -> notify_trade s t = Ok None) /\
  (Trade.isclosed t = true -> Trade.size t = 0%Z ->
   exists l, notify_trade s t = Ok (Some l) /\ line_pct l = 0) /\
  (forall e, notify_trade s t = Raise e ->
             Trade.isclosed t = true /\ Trade.size t <> 0%Z /\
             (e = OverflowError \/ e = ZeroDivisionError)).
Proof.
  unfold notify_trade. split; [|split].
  - intros ->. reflexivity.
  - intros -> Hz. unfold pnl_pct. rewrite Hz. simpl.
    eexists. split; reflexivity.
  - intros e. destruct (Trade.isclosed t); [|discriminate].
    destruct (pnl_pct t) as [pct|e'] eqn:Hp; simpl; [discriminate|].
    intros [= <-]. split; [reflexivity|]. exact (pnl_pct_raise t e' Hp).
Qed.

Lemma notify_trade_edges_witness :
  exists l, notify_trade long_950 thin_trade = Ok (Some l) /\ line_pct l = 0.
Proof.
  apply (proj1 (proj2 (notify_trade_edges long_950 thin_trade)));
    reflexivity.
Defined.

(** X11. Whenever [notify_trade] prints a line, the line carries the
    current trade count and the net P&L ([pnlcomm]), while the label is
    taken from the gross P&L alone: WIN exactly when [pnl > 0], so LOSS for
    a [pnl] of zero or NaN, and WIN for a trade whose commission exceeds its
    gross profit. *)
Theorem notify_trade_label (s : Strategy) (t : Trade.t) (l : TradeLine) :
  notify_trade s t = Ok (Some l) ->
  line_count l = trade_count s /\
  line_pnl l = Trade.pnlcomm t /\
  (line_result l = WIN <-> (0 <? Trade.pnl t) = true) /\
  (is_nan (Trade.pnl t) = true -> line_result l = LOSS).
Proof.
  unfold notify_trade. destruct (Trade.isclosed t); [|discriminate].
  destruct (pnl_pct t) as [pct|e]; simpl; [|discriminate].
  intros [= <-]. simpl. split; [reflexivity|]. split; [reflexivity|].
  split.
  - destruct (0 <? Trade.pnl t); split; congruence.
  - intros Hn. now rewrite (nan_ltb_r 0 _ Hn).
Qed.

Lemma notify_trade_label_witness :
  line_count (mkTradeLine 1 WIN (-5) 0) = trade_count long_950 /\
  line_pnl (mkTradeLine 1 WIN (-5) 0) = Trade.pnlcomm thin_trade /\
  (line_result (mkTradeLine 1 WIN (-5) 0) = WIN <->
   (0 <? Trade.pnl thin_trade) = true) /\
  (is_nan (Trade.pnl thin_trade) = true ->
   line_result (mkTradeLine 1 WIN (-5) 0) = LOSS).
Proof.
  apply (notify_trade_label long_950 thin_trade (mkTradeLine 1 WIN (-5) 0)).
  reflexivity.
Defined.

(** ** The profit factor *)

Lemma abs_zero_not_pos (x : float) :
  (x =? 0) = true \/ is_nan x = true -> (0 <? abs x) = false.
Proof.
  rewrite is_nan_iff, FloatAxioms.eqb_spec, FloatAxioms.ltb_spec,
    FloatAxioms.abs_spec.
  change (Prim2SF 0) with (S754_zero false). unfold SFeqb, SFltb.
  destruct (Prim2SF x) as [[|]|[|]| |[|] m e]; simpl;
    intros [H | H]; try discriminate; reflexivity.
Qed.

(** X12. The profit factor is computed without exception for every trade
    analysis: the test [total_lost > 0] keeps a zero divisor away.  It is
    infinite when the losses are missing from the analysis at any level,
    are zero or are not a number, whatever was won. *)
Theorem profit_factor_total (trades : TradeAnalysis) :
  (exists f, profit_factor trades = Ok f) /\
  ((pnl_total (lost trades) =? 0) = true \/
   is_nan (pnl_total (lost trades)) = true ->
   profit_factor trades = Ok infinity) /\
  (lost trades = None \/
   lost trades = Some {| side_pnl := None |} \/
   lost trades = Some {| side_pnl := Some {| total := None |} |} ->
   profit_factor trades = Ok infinity).
Proof.
  unfold profit_factor. split; [|split].
  - destruct (0 <? abs (pnl_total (lost trades))) eqn:Hpos; [|eauto].
    unfold truediv. rewrite (ltb_zero_eqb _ Hpos). eauto.
  - intros H. now rewrite (abs_zero_not_pos _ H).
  - intros [-> | [-> | ->]]; reflexivity.
Qed.

Lemma profit_factor_total_witness :
  profit_factor no_loss_analysis = Ok infinity.
Proof.
  apply (proj2 (proj2 (profit_factor_total no_loss_analysis))).
  left. reflexivity.
Defined.
